(** * Verification of the news-headline scraper (src/app.py)

    The script looks a news source up in [SOURCES_CONFIG], fetches its
    front page, walks the nodes matched by the source's headline selector,
    collects deduplicated (headline, link) pairs up to a cap and prints
    them.  The embedding below follows the script line by line.

    Modelling choices:
    - Python [str] is [string]; texts are taken to be ASCII, and
      [lower], [upper] and [strip] act on the ASCII range as Python's do.
    - Python [int] is [Z]; [None]-or-value is [option].
    - [SOURCES_CONFIG] is an association list: [', '.join(d.keys())]
      depends on insertion order.
    - [seen_urls] is a [gset string].
    - The collaborators that are not part of the script ([requests.get],
      [BeautifulSoup], [urljoin]) are fields of an environment record; the
      parsed document is the interface the script uses: [select], tag
      names, [find_parent], [get_text] and attribute [get].
    - Exceptions are values of [exn]; a run returns its events, its
      printed lines and either an exception or normal termination.
    - Scope: [parse], [select] and [urljoin] are functions that return;
      a run in which the parser or the resolver itself raises is not
      among the runs described.  On text outside ASCII Python's [lower],
      [upper] and [strip] do more than the ones below; [PyStr.is_ascii]
      marks the statements that need the restriction. *)

From Stdlib Require Import ZArith String Ascii List Bool Lia DecimalString.
From stdpp Require Import base list strings gmap sets.

Open Scope string_scope.
Open Scope Z_scope.

(** ** Python string helpers *)

Module PyStr.

(** Truthiness of a string: [bool(s)]. *)
Definition truthy (s : string) : bool :=
  match s with EmptyString => false | String _ _ => true end.

(** [s.startswith(p)]. *)
Fixpoint startswith (s p : string) : bool :=
  match p, s with
  | EmptyString, _ => true
  | String a p', String b s' => Ascii.eqb a b && startswith s' p'
  | String _ _, EmptyString => false
  end.

Definition lower_ascii (c : ascii) : ascii :=
  let n := nat_of_ascii c in
  if ((65 <=? n) && (n <=? 90))%nat then ascii_of_nat (n + 32) else c.

Definition upper_ascii (c : ascii) : ascii :=
  let n := nat_of_ascii c in
  if ((97 <=? n) && (n <=? 122))%nat then ascii_of_nat (n - 32) else c.

Fixpoint map_chars (f : ascii -> ascii) (s : string) : string :=
  match s with
  | EmptyString => EmptyString
  | String c s' => String (f c) (map_chars f s')
  end.

(** [s.lower()] and [s.upper()]. *)
Definition lower : string -> string := map_chars lower_ascii.
Definition upper : string -> string := map_chars upper_ascii.

(** The ASCII characters for which [str.isspace] holds:
    TAB, LF, VT, FF, CR, FS, GS, RS, US and the space. *)
Definition is_space (c : ascii) : bool :=
  let n := nat_of_ascii c in
  (((9 <=? n) && (n <=? 13)) || ((28 <=? n) && (n <=? 32)))%nat.

Fixpoint lstrip (s : string) : string :=
  match s with
  | EmptyString => EmptyString
  | String c s' => if is_space c then lstrip s' else s
  end.

Fixpoint rstrip (s : string) : string :=
  match s with
  | EmptyString => EmptyString
  | String c s' =>
      let r := rstrip s' in
      if is_space c && negb (truthy r) then EmptyString else String c r
  end.

(** [s.strip()]. *)
Definition strip (s : string) : string := rstrip (lstrip s).

(** [sep.join(parts)]. *)
Fixpoint join (sep : string) (parts : list string) : string :=
  match parts with
  | [] => EmptyString
  | [p] => p
  | p :: rest => p +:+ sep +:+ join sep rest
  end.

(** [sub in s]. *)
Fixpoint contains (s sub : string) : bool :=
  startswith s sub ||
  match s with
  | EmptyString => false
  | String _ s' => contains s' sub
  end.

(** Whether every character of [s] is an ASCII character. *)
Fixpoint is_ascii (s : string) : bool :=
  match s with
  | EmptyString => true
  | String c s' => (nat_of_ascii c <? 128)%nat && is_ascii s'
  end.

Definition squote : ascii := ascii_of_nat 39.
Definition dquote : ascii := ascii_of_nat 34.
Definition backslash : ascii := ascii_of_nat 92.

Fixpoint mem_char (c : ascii) (s : string) : bool :=
  match s with
  | EmptyString => false
  | String a s' => Ascii.eqb a c || mem_char c s'
  end.

Definition hex_digit (n : nat) : ascii :=
  ascii_of_nat (if (n <? 10)%nat then 48 + n else 87 + n).

(** One character of [repr(s)] inside the quotes [q]. *)
Definition repr_char (q c : ascii) : string :=
  let n := nat_of_ascii c in
  if Ascii.eqb c backslash then String backslash (String backslash EmptyString)
  else if Ascii.eqb c q then String backslash (String q EmptyString)
  else if (n =? 10)%nat then String backslash "n"
  else if (n =? 13)%nat then String backslash "r"
  else if (n =? 9)%nat then String backslash "t"
  else if ((n <? 32) || (n =? 127))%nat
       then String backslash
              (String "x" (String (hex_digit (n / 16))
                             (String (hex_digit (n mod 16)) EmptyString)))
  else String c EmptyString.

Fixpoint repr_chars (q : ascii) (s : string) : string :=
  match s with
  | EmptyString => EmptyString
  | String c s' => repr_char q c +:+ repr_chars q s'
  end.

(** [repr(s)] of an ASCII string: single quotes, unless [s] has a single
    quote and no double quote. *)
Definition repr (s : string) : string :=
  let q := if mem_char squote s && negb (mem_char dquote s) then dquote else squote in
  String q (repr_chars q s +:+ String q EmptyString).

(** [str(n)] for a natural number (the [{i}] of an f-string). *)
Definition of_nat (n : nat) : string := NilEmpty.string_of_uint (Nat.to_uint n).

End PyStr.

(** ** Exceptions *)

(** An exception with its one argument: a message, or the missing key of
    a [KeyError]. *)
Inductive exn : Type :=
| ValueError (msg : string)
| KeyError (key : string)
| NameError (msg : string)
| RequestException (msg : string)
| RuntimeError (msg : string)
| OtherException (msg : string).

(** [str(e)]: the argument, and for a [KeyError] the [repr] of the key. *)
Definition str_exn (e : exn) : string :=
  match e with
  | KeyError k => PyStr.repr k
  | ValueError m | NameError m
  | RequestException m | RuntimeError m | OtherException m => m
  end.

(** ** The parsed document, as the script uses it *)

(** A tag with its attributes; [parents] of an element lists its
    ancestors, nearest first. *)
Record Tag : Type := { tag_name : string; tag_attrs : list (string * string) }.

Record Element : Type :=
  { tag : Tag; text : string; parents : list Tag }.

Record Document : Type := { select : string -> list Element }.

(** [element.name]. *)
Definition name (element : Element) : string := tag_name (tag element).

(** [element.find_parent(n)]: the nearest ancestor called [n], or [None]. *)
Definition find_parent (n : string) (element : Element) : option Tag :=
  List.find (fun t => String.eqb (tag_name t) n) (parents element).

(** [element.get_text()]. *)
Definition get_text (element : Element) : string := text element.

Fixpoint assoc {A : Type} (key : string) (d : list (string * A)) : option A :=
  match d with
  | [] => None
  | (k, v) :: rest => if String.eqb k key then Some v else assoc key rest
  end.

(** [tag.get(key, default)]. *)
Definition tag_get (t : Tag) (key default : string) : string :=
  match assoc key (tag_attrs t) with Some v => v | None => default end.

(** ** Configuration of the news sources *)

Record SourceConfig : Type :=
  { url : string;
    headline_selector : string;
    link_selector : string;
    base_url : string;
    link_filter : string -> bool;
    max_items : option Z }.

Definition DEFAULT_MAX_ITEMS : Z := 10.

(** The double-quote character, for selectors that contain it. *)
Definition dq : string := String (ascii_of_nat 34) EmptyString.

Definition bbc : SourceConfig :=
  {| url := "https://www.bbc.com/news";
     headline_selector := "[data-testid=" +:+ dq +:+ "card-headline" +:+ dq +:+ "]";
     link_selector := "a[data-testid=" +:+ dq +:+ "internal-link" +:+ dq +:+ "]";
     base_url := "https://www.bbc.com";
     link_filter := fun href =>
       PyStr.truthy href && PyStr.startswith href "/news";
     max_items := Some DEFAULT_MAX_ITEMS |}.

Definition cnn : SourceConfig :=
  {| url := "https://www.cnn.com";
     headline_selector := ".container__headline";
     link_selector := "a.container__link";
     base_url := "https://www.cnn.com";
     link_filter := fun href =>
       PyStr.truthy href && negb (PyStr.startswith href "#");
     max_items := Some DEFAULT_MAX_ITEMS |}.

Definition fox : SourceConfig :=
  {| url := "https://www.foxnews.com";
     headline_selector := " h3.title a";
     link_selector :=
       "a[href*=" +:+ dq +:+ "/politics/" +:+ dq +:+ "], a[href*=" +:+ dq +:+ "/us/" +:+ dq
       +:+ "], a[href*=" +:+ dq +:+ "/world/" +:+ dq +:+ "], a[href*=" +:+ dq +:+ "/opinion/"
       +:+ dq +:+ "], a[href*=" +:+ dq +:+ "/entertainment/" +:+ dq +:+ "]";
     base_url := "https://www.foxnews.com";
     link_filter := fun href =>
       PyStr.truthy href &&
       (PyStr.startswith href "/" || PyStr.startswith href "https://www.foxnews.com");
     max_items := Some DEFAULT_MAX_ITEMS |}.

Definition cbs : SourceConfig :=
  {| url := "https://www.cbsnews.com";
     headline_selector := "h4.item__hed";
     link_selector :=
       "a.item__anchor, a[href*=" +:+ dq +:+ "/news/" +:+ dq +:+ "], a[href*=" +:+ dq
       +:+ "/politics/" +:+ dq +:+ "], a[href*=" +:+ dq +:+ "/world/" +:+ dq +:+ "]";
     base_url := "https://www.cbsnews.com";
     link_filter := fun href =>
       PyStr.truthy href &&
       (PyStr.startswith href "/" || PyStr.startswith href "https://www.cbsnews.com");
     max_items := Some DEFAULT_MAX_ITEMS |}.

Definition wsj : SourceConfig :=
  {| url := "https://www.wsj.com";
     headline_selector := "   a";
     link_selector := "a.e1sf124z12 css-1rznr30-CardLink";
     base_url := "https://www.wsj.com";
     link_filter := fun href =>
       PyStr.truthy href &&
       (PyStr.startswith href "/" || PyStr.startswith href "https://www.wsj.com");
     max_items := Some DEFAULT_MAX_ITEMS |}.

Definition SOURCES_CONFIG : list (string * SourceConfig) :=
  [("bbc", bbc); ("cnn", cnn); ("fox", fox); ("cbs", cbs); ("wsj", wsj)].

Definition DEFAULT_HEADERS : list (string * string) :=
  [("User-Agent",
    "Mozilla/5.0 (Windows NT 10.0; Win64; x64) AppleWebKit/537.36 (KHTML, like Gecko) Chrome/91.0.4472.124 Safari/537.36")].

(** [d.keys()], [key in d] and [d.get(key)] on an insertion-ordered dict. *)
Definition keys {A : Type} (d : list (string * A)) : list string := map fst d.

Definition dict_mem {A : Type} (key : string) (d : list (string * A)) : bool :=
  existsb (String.eqb key) (keys d).

(** ** Lines 83-88: source lookup and the item cap *)

(** Lines 83-87.  The result carries the normalised [source] too, which
    the reporter prints. *)
Definition lookup (source : string) : exn + (string * SourceConfig) :=
  let source := PyStr.lower source in
  if negb (dict_mem source SOURCES_CONFIG) then
    inl (ValueError ("Unsupported news source. Try one of: "
                     +:+ PyStr.join ", " (keys SOURCES_CONFIG)))
  else
    match assoc source SOURCES_CONFIG with
    | Some config => inr (source, config)
    | None => inl (KeyError source)
    end.

(** [config.get('max_items', default)]. *)
Definition config_get_max_items (config : SourceConfig) (default : Z) : Z :=
  match max_items config with Some m => m | None => default end.

(** [a or b] for an optional integer [a]: [None] and [0] are falsy. *)
Definition py_or (a : option Z) (b : Z) : Z :=
  match a with
  | None => b
  | Some n => if n =? 0 then b else n
  end.

(** Line 88: [max_items = max_items or config.get('max_items', 15)]. *)
Definition effective_max_items (override : option Z) (config : SourceConfig) : Z :=
  py_or override (config_get_max_items config 15).

(** ** The collaborators outside the script *)

(** [http_get url headers timeout] is [requests.get] followed by
    [raise_for_status]: the response text, or the exception raised.
    [parse] is [BeautifulSoup(text, 'html.parser')], [urljoin] is
    [urllib.parse.urljoin].  [world_link] stands for what
    [world.content.utilities.make_clickable_ansi_link] would compute if
    the name [world] were bound. *)
Record Env : Type :=
  { http_get : string -> list (string * string) -> Z -> exn + string;
    parse : string -> Document;
    urljoin : string -> string -> string;
    world_link : string -> string -> exn + string }.

(** ** Lines 103-132: the extraction loop *)

Record HeadlineItem : Type := { headline : string; link : string }.

(** The two variables the loop updates. *)
Record Store : Type :=
  { headlines : list HeadlineItem; seen_urls : gset string }.

Inductive flow : Type := Continue | Break.

Section Extraction.

Variable env : Env.
Variable config : SourceConfig.
Variable cap : Z.  (* the script's [max_items] after line 88 *)

(** Line 109. *)
Definition link_element_of (element : Element) : option Tag :=
  if String.eqb (name element) "a" then Some (tag element)
  else find_parent "a" element.

(** Lines 108-132, one iteration. *)
Definition loop_body (st : Store) (element : Element) : flow * Store :=
  match link_element_of element with
  | None => (Continue, st)
  | Some link_element =>
      let headline_text := PyStr.strip (get_text element) in
      let href := tag_get link_element "href" EmptyString in
      if negb (PyStr.truthy headline_text) || negb (link_filter config href)
      then (Continue, st)
      else
        let full_url :=
          if PyStr.truthy href then Some (urljoin env (base_url config) href)
          else None in
        match full_url with
        | Some full_url =>
            if PyStr.truthy full_url && negb (bool_decide (full_url ∈ seen_urls st))
            then
              let st' :=
                {| headlines :=
                     headlines st ++
                     [{| headline := headline_text; link := full_url |}];
                   seen_urls := {[full_url]} ∪ seen_urls st |} in
              if Z.of_nat (length (headlines st')) >=? cap
              then (Break, st')
              else (Continue, st')
            else (Continue, st)
        | None => (Continue, st)
        end
  end.

(** Line 107: the [for] loop.  Next to the final store it returns the
    elements the iteration never reached. *)
Fixpoint for_loop (elements : list Element) (st : Store)
  : Store * list Element :=
  match elements with
  | [] => (st, [])
  | element :: rest =>
      match loop_body st element with
      | (Break, st') => (st', rest)
      | (Continue, st') => for_loop rest st'
      end
  end.

(** Lines 103-132 run on a store left by whatever ran before: lines
    103-104 rebind [headlines] and [seen_urls]. *)
Definition extract_from (before : Store) (soup : Document) : Store * list Element :=
  let st := {| headlines := []; seen_urls := seen_urls before |} in  (* line 103 *)
  let st := {| headlines := headlines st; seen_urls := ∅ |} in       (* line 104 *)
  for_loop (select soup (headline_selector config)) st.

End Extraction.

Definition empty_store : Store := {| headlines := []; seen_urls := ∅ |}.

(** The list of headlines of one extraction. *)
Definition extract (env : Env) (soup : Document) (config : SourceConfig) (cap : Z)
  : list HeadlineItem :=
  headlines (fst (extract_from env config cap empty_store soup)).

(** The matched nodes the traversal visited. *)
Definition visited (env : Env) (soup : Document) (config : SourceConfig) (cap : Z)
  : nat :=
  (length (select soup (headline_selector config))
   - length (snd (extract_from env config cap empty_store soup)))%nat.

(** ** Lines 134-139: the reporter *)

(** The names bound in the module when line 138 runs (imports and
    assignments of the script), and the builtins it uses.  Python's
    builtins have no [world]. *)
Definition module_globals : list string :=
  ["requests"; "BeautifulSoup"; "urljoin"; "sys"; "source"; "max_items";
   "DEFAULT_MAX_ITEMS"; "SOURCES_CONFIG"; "DEFAULT_HEADERS"; "config";
   "response"; "soup"; "headlines"; "seen_urls"; "element"; "link_element";
   "headline_text"; "href"; "full_url"; "i"; "item"].

Definition builtins : list string :=
  ["print"; "enumerate"; "len"; "set"; "str"; "ValueError"; "RuntimeError";
   "Exception"].

(** Evaluation of a global name. *)
Definition load_name (n : string) : exn + unit :=
  if existsb (String.eqb n) (module_globals ++ builtins) then inr tt
  else inl (NameError ("name '" +:+ n +:+ "' is not defined")).

Definition nl : string := String (ascii_of_nat 10) EmptyString.

(** Lines 136-139; [out] collects the arguments of [print]. *)
Fixpoint report_items (env : Env) (i : nat) (items : list HeadlineItem)
  (out : list string) : list string * (exn + unit) :=
  match items with
  | [] => (out, inr tt)
  | item :: rest =>
      let out := (out ++ [PyStr.of_nat i +:+ ". " +:+ headline item])%list in
      match load_name "world" with
      | inl e => (out, inl e)
      | inr _ =>
          match world_link env (link item) "Link" with
          | inl e => (out, inl e)
          | inr l =>
              report_items env (S i) rest
                (out ++ [l +:+ ": " +:+ link item +:+ nl])%list
          end
      end
  end.

(** Lines 135-139. *)
Definition report (env : Env) (source : string) (items : list HeadlineItem)
  : list string * (exn + unit) :=
  report_items env 1 items
    [nl +:+ "Latest " +:+ PyStr.upper source +:+ " News Headlines:"].

(** ** The whole script *)

Inductive event : Type := HttpGet (url : string).

Record Outcome : Type :=
  { events : list event; stdout : list string; result : exn + unit }.

(** Lines 141-144: the two handlers of the [try]. *)
Definition handler (e : exn) : exn :=
  match e with
  | RequestException m => RuntimeError ("Failed to fetch news: " +:+ m)
  | _ => RuntimeError ("An error occurred while scraping: " +:+ str_exn e)
  end.

(** Lines 83-146.  An exception ends the script where it is raised; the
    [print()] of line 146 runs when the [try] block ends normally. *)
Definition run (env : Env) (source : string) (override : option Z) : Outcome :=
  match lookup source with
  | inl e => {| events := []; stdout := []; result := inl e |}
  | inr (source, config) =>
      let cap := effective_max_items override config in
      let ev := [HttpGet (url config)] in
      match http_get env (url config) DEFAULT_HEADERS 10 with
      | inl e => {| events := ev; stdout := []; result := inl (handler e) |}
      | inr response_text =>
          let soup := parse env response_text in
          let items := extract env soup config cap in
          match report env source items with
          | (out, inl e) =>
              {| events := ev; stdout := out; result := inl (handler e) |}
          | (out, inr _) =>
              (* line 146: [print()] after the [try] *)
              {| events := ev; stdout := (out ++ [EmptyString])%list;
                 result := inr tt |}
          end
      end
  end.

(** ** Qualifying nodes and first occurrences *)

(** What a matched node contributes when nothing stops it: the node has a
    link-bearing element, a non-empty stripped text, an [href] that the
    filter accepts and that is not empty, and a non-empty resolved URL. *)
Definition candidate (env : Env) (config : SourceConfig) (element : Element)
  : option HeadlineItem :=
  match link_element_of element with
  | None => None
  | Some link_element =>
      let headline_text := PyStr.strip (get_text element) in
      let href := tag_get link_element "href" EmptyString in
      let full_url := urljoin env (base_url config) href in
      if PyStr.truthy headline_text && link_filter config href
         && PyStr.truthy href && PyStr.truthy full_url
      then Some {| headline := headline_text; link := full_url |}
      else None
  end.

(** The qualifying occurrences of a document, in document order. *)
Definition candidates (env : Env) (config : SourceConfig) (elements : list Element)
  : list HeadlineItem :=
  omap (candidate env config) elements.

(** Keep, in order, the first occurrence of every link. *)
Fixpoint first_occurrences (items : list HeadlineItem) : list HeadlineItem :=
  match items with
  | [] => []
  | item :: rest =>
      item :: filter (fun x => link x ≠ link item) (first_occurrences rest)
  end.

(** The store after lines 124-128 appended [item]. *)
Definition push (st : Store) (item : HeadlineItem) : Store :=
  {| headlines := headlines st ++ [item];
     seen_urls := {[link item]} ∪ seen_urls st |}.

(** The number of items the loop can still append to [n] collected ones:
    the cap is tested only after an append, so one item always fits. *)
Definition room (cap : Z) (n : nat) : nat := Z.to_nat (Z.max 1 (cap - Z.of_nat n)).

(** A string is trimmed when it neither begins nor ends with a whitespace
    character. *)
Definition trimmed (s : string) : Prop :=
  (∀ c r, s = String c r → PyStr.is_space c = false) ∧
  (∀ c r, s = r +:+ String c EmptyString → PyStr.is_space c = false).

(** ** Concrete inputs *)

(** A resolver that appends a root-relative reference to an origin. *)
Definition urljoin_origin (base href : string) : string := base +:+ href.

Definition anchor (href txt : string) (ps : list Tag) : Element :=
  {| tag := {| tag_name := "a"; tag_attrs := [("href", href)] |};
     text := txt; parents := ps |}.

Definition h1_title : Tag :=
  {| tag_name := "h1"; tag_attrs := [("class", "title")] |}.

Definition scenario_rule : SourceConfig :=
  {| url := "https://example.com";
     headline_selector := "h1.title a";
     link_selector := "a";
     base_url := "https://example.com";
     link_filter := fun href => PyStr.startswith href "/";
     max_items := Some 2 |}.

Definition scenario_nodes : list Element :=
  [anchor "/a" "First" [h1_title];
   anchor "/b" "Second" [h1_title];
   anchor "/a" "First" [h1_title]].

Definition scenario_doc : Document :=
  {| select := fun sel =>
       if String.eqb sel "h1.title a" then scenario_nodes else [] |}.

(** A front page of the BBC with one card. *)
Definition card : Element :=
  {| tag := {| tag_name := "h2"; tag_attrs := [("data-testid", "card-headline")] |};
     text := " Storm hits coast ";
     parents := [{| tag_name := "a"; tag_attrs := [("href", "/news/storm")] |}] |}.

Definition bbc_doc : Document :=
  {| select := fun sel =>
       if String.eqb sel (headline_selector bbc) then [card; card] else [] |}.

(** Nodes that the loop passes over: a heading outside any anchor, an
    anchor without [href], an anchor with blank text, an in-page anchor. *)
Definition plain_heading : Element :=
  {| tag := {| tag_name := "h2"; tag_attrs := [] |};
     text := "Weather";
     parents := [{| tag_name := "div"; tag_attrs := [] |};
                 {| tag_name := "body"; tag_attrs := [] |}] |}.

Definition bare_anchor : Element :=
  {| tag := {| tag_name := "a"; tag_attrs := [("class", "container__link")] |};
     text := "Markets"; parents := [] |}.

Definition blank_anchor : Element := anchor "/news/blank" "   " [].

Definition fragment_anchor : Element := anchor "#top" "Back to top" [].

Definition mixed_doc : Document :=
  {| select := fun _ =>
       [plain_heading; bare_anchor; blank_anchor; fragment_anchor;
        anchor "/2024/markets" " Markets rally " [];
        anchor "/2024/markets" "Markets rally again" [];
        anchor "/2024/storm" "Storm" []] |}.

Definition empty_doc : Document := {| select := fun _ => [] |}.

Definition env_of (soup : Document) : Env :=
  {| http_get := fun _ _ _ => inr "<html></html>";
     parse := fun _ => soup;
     urljoin := urljoin_origin;
     world_link := fun _ l => inr l |}.

(** Whether a string is made of whitespace only. *)
Fixpoint all_space (s : string) : bool :=
  match s with
  | EmptyString => true
  | String c s' => PyStr.is_space c && all_space s'
  end.

(** The line printed first by the reporter. *)
Definition title_line (source : string) : string :=
  nl +:+ "Latest " +:+ PyStr.upper source +:+ " News Headlines:".

(** The CNN rule with another page URL and link selector and without a
    cap of its own. *)
Definition cnn_mirror : SourceConfig :=
  {| url := "https://edition.cnn.com";
     headline_selector := headline_selector cnn;
     link_selector := "a";
     base_url := base_url cnn;
     link_filter := link_filter cnn;
     max_items := None |}.

(** An environment whose request fails with [e]. *)
Definition env_failing (e : exn) : Env :=
  {| http_get := fun _ _ _ => inl e;
     parse := fun _ => empty_doc;
     urljoin := urljoin_origin;
     world_link := fun _ l => inr l |}.

(** * Proofs *)

(** ** Strings *)

Lemma truthy_true (s : string) : PyStr.truthy s = true ↔ s ≠ EmptyString.
Proof. destruct s; simpl; split; congruence. Qed.

Lemma truthy_false (s : string) : PyStr.truthy s = false ↔ s = EmptyString.
Proof. destruct s; simpl; split; congruence. Qed.

Lemma rstrip_idemp (s : string) : PyStr.rstrip (PyStr.rstrip s) = PyStr.rstrip s.
Proof.
  induction s as [|c s IH]; simpl; [reflexivity|].
  destruct (PyStr.is_space c && negb (PyStr.truthy (PyStr.rstrip s))) eqn:E;
    simpl; [reflexivity|].
  rewrite IH, E. reflexivity.
Qed.

Lemma lstrip_head (s : string) c r :
  PyStr.lstrip s = String c r → PyStr.is_space c = false.
Proof.
  induction s as [|a s IH]; simpl; [discriminate|].
  destruct (PyStr.is_space a) eqn:E; [exact IH|].
  intros [= <- <-]. exact E.
Qed.

Lemma lstrip_rstrip_head (s : string) :
  PyStr.lstrip (PyStr.rstrip (PyStr.lstrip s)) = PyStr.rstrip (PyStr.lstrip s).
Proof.
  destruct (PyStr.lstrip s) as [|c r] eqn:E; [reflexivity|].
  apply lstrip_head in E. simpl. rewrite E. simpl. rewrite E. reflexivity.
Qed.

Lemma strip_idemp (s : string) : PyStr.strip (PyStr.strip s) = PyStr.strip s.
Proof.
  unfold PyStr.strip. rewrite lstrip_rstrip_head. apply rstrip_idemp.
Qed.

Lemma append_cons (c : ascii) (a b : string) :
  String c a +:+ b = String c (a +:+ b).
Proof. reflexivity. Qed.

Lemma append_nil (b : string) : EmptyString +:+ b = b.
Proof. reflexivity. Qed.

Lemma rstrip_last (s r : string) (c : ascii) :
  PyStr.rstrip s = r +:+ String c EmptyString → PyStr.is_space c = false.
Proof.
  revert r. induction s as [|a s IH]; intros r; cbn [PyStr.rstrip].
  - destruct r; discriminate.
  - destruct (PyStr.is_space a && negb (PyStr.truthy (PyStr.rstrip s))) eqn:Hc.
    + destruct r; discriminate.
    + destruct r as [|b r]; [rewrite append_nil|rewrite append_cons].
      * intros [= -> Hr]. rewrite Hr in Hc. cbn [PyStr.truthy negb] in Hc.
        rewrite andb_true_r in Hc. exact Hc.
      * intros [= _ Hr]. exact (IH _ Hr).
Qed.

Lemma strip_head (s r : string) (c : ascii) :
  PyStr.strip s = String c r → PyStr.is_space c = false.
Proof.
  unfold PyStr.strip. destruct (PyStr.lstrip s) as [|a t] eqn:Hl; [discriminate|].
  apply lstrip_head in Hl. cbn [PyStr.rstrip]. rewrite Hl. cbn [andb].
  intros [= <- _]. exact Hl.
Qed.

Lemma strip_trimmed (s : string) : trimmed (PyStr.strip s).
Proof.
  split; intros c r.
  - apply strip_head.
  - unfold PyStr.strip. apply rstrip_last.
Qed.

(** ** One iteration of the loop *)

Section LoopFacts.

Variable env : Env.
Variable config : SourceConfig.
Variable cap : Z.

Local Abbreviation body := (loop_body env config cap).
Local Abbreviation loop := (for_loop env config cap).
Local Abbreviation cand := (candidate env config).

Lemma loop_body_spec (st : Store) (element : Element) :
  body st element =
  match cand element with
  | None => (Continue, st)
  | Some item =>
      if bool_decide (link item ∈ seen_urls st) then (Continue, st)
      else if Z.of_nat (length (headlines st) + 1) >=? cap
           then (Break, push st item)
           else (Continue, push st item)
  end.
Proof.
  unfold loop_body, candidate, push.
  destruct (link_element_of element) as [le|]; [|reflexivity].
  destruct (PyStr.truthy (PyStr.strip (get_text element))); simpl; [|reflexivity].
  destruct (link_filter config _); simpl; [|reflexivity].
  destruct (PyStr.truthy (tag_get le "href" EmptyString)); simpl; [|reflexivity].
  destruct (PyStr.truthy (urljoin env _ _)); simpl; [|reflexivity].
  destruct (bool_decide _); simpl; [reflexivity|].
  rewrite length_app. simpl. reflexivity.
Qed.

(** A skipped node leaves both variables as they were. *)
Lemma loop_body_skip (st : Store) (element : Element) :
  cand element = None → body st element = (Continue, st).
Proof. intros H. rewrite loop_body_spec, H. reflexivity. Qed.

(** ** The loop computes the first occurrences, cut at the cap *)

Lemma filter_unseen_cons (seen : gset string) (item : HeadlineItem)
    (items : list HeadlineItem) :
  filter (fun x => link x ∉ seen) (first_occurrences (item :: items)) =
  if bool_decide (link item ∈ seen)
  then filter (fun x => link x ∉ seen) (first_occurrences items)
  else item :: filter (fun x => link x ∉ {[link item]} ∪ seen)
                 (first_occurrences items).
Proof.
  simpl. case_bool_decide as Hin.
  - rewrite filter_cons_False by (intros Hn; exact (Hn Hin)).
    rewrite list_filter_filter. apply list_filter_iff.
    intros x. split; [intros [Hx _]; exact Hx|]. intros Hx. split; [exact Hx|congruence].
  - rewrite filter_cons_True by exact Hin. f_equal.
    rewrite list_filter_filter. apply list_filter_iff.
    intros x. rewrite not_elem_of_union, not_elem_of_singleton. tauto.
Qed.

Lemma candidates_cons (element : Element) (rest : list Element) :
  candidates env config (element :: rest) =
  match cand element with
  | Some item => item :: candidates env config rest
  | None => candidates env config rest
  end.
Proof. reflexivity. Qed.

Lemma for_loop_headlines (elements : list Element) (st : Store) :
  headlines (fst (loop elements st)) =
  (headlines st ++
   take (room cap (length (headlines st)))
     (filter (fun x => link x ∉ seen_urls st)
        (first_occurrences (candidates env config elements))))%list.
Proof.
  revert st. induction elements as [|element rest IH]; intros st.
  - cbn [for_loop fst candidates omap list_omap first_occurrences].
    rewrite filter_nil, take_nil, app_nil_r. reflexivity.
  - cbn [for_loop]. rewrite loop_body_spec, candidates_cons.
    destruct (cand element) as [item|] eqn:Hc; [|apply IH].
    rewrite filter_unseen_cons.
    case_bool_decide as Hin; [apply IH|].
    destruct (Z.of_nat (length (headlines st) + 1) >=? cap) eqn:Hcap;
      rewrite Z.geb_leb in Hcap;
      [apply Z.leb_le in Hcap | apply Z.leb_gt in Hcap].
    + cbn [fst]. unfold push at 1. cbn [headlines].
      assert (room cap (length (headlines st)) = 1%nat) as -> by (unfold room; lia).
      reflexivity.
    + rewrite IH. unfold push at 1 2. cbn [headlines seen_urls].
      rewrite length_app. cbn [length].
      assert (room cap (length (headlines st)) =
              S (room cap (length (headlines st) + 1))) as ->
          by (unfold room; lia).
      rewrite <- app_assoc. reflexivity.
Qed.

End LoopFacts.

(** ** First occurrences *)

Lemma filter_all {A : Type} (P : A → Prop) `{!∀ x, Decision (P x)} (l : list A) :
  (∀ x, P x) → filter P l = l.
Proof.
  intros HP. induction l as [|x l IH]; [reflexivity|].
  rewrite filter_cons_True by apply HP. f_equal. exact IH.
Qed.

Lemma first_occurrences_sublist (items : list HeadlineItem) :
  first_occurrences items `sublist_of` items.
Proof.
  induction items as [|item rest IH]; simpl; [constructor|].
  apply sublist_skip. etrans; [apply sublist_filter|exact IH].
Qed.

Lemma first_occurrences_NoDup (items : list HeadlineItem) :
  NoDup (link <$> first_occurrences items).
Proof.
  induction items as [|item rest IH]; cbn [first_occurrences]; [constructor|].
  rewrite fmap_cons. apply NoDup_cons. split.
  - intros (x & Hx & Hin)%list_elem_of_fmap.
    apply list_elem_of_filter in Hin as [Hne _]. congruence.
  - eapply sublist_NoDup; [exact IH|].
    apply fmap_sublist, sublist_filter.
Qed.

(** An item that was kept has no earlier occurrence of its link. *)
Lemma first_occurrences_first (items : list HeadlineItem) (item : HeadlineItem) :
  item ∈ first_occurrences items →
  ∃ pre post, items = (pre ++ item :: post)%list ∧ link item ∉ link <$> pre.
Proof.
  induction items as [|x rest IH]; cbn [first_occurrences];
    [intros H; inversion H|].
  intros [->|Hin]%elem_of_cons.
  - exists [], rest. split; [reflexivity|]. rewrite fmap_nil. apply not_elem_of_nil.
  - apply list_elem_of_filter in Hin as [Hne Hin].
    destruct (IH Hin) as (pre & post & -> & Hpre).
    exists (x :: pre), post. split; [reflexivity|].
    rewrite fmap_cons, not_elem_of_cons. split; assumption.
Qed.

(** ** Extraction as a whole *)

Lemma extract_spec (env : Env) (soup : Document) (config : SourceConfig) (cap : Z) :
  extract env soup config cap =
  take (room cap 0)
    (first_occurrences
       (candidates env config (select soup (headline_selector config)))).
Proof.
  unfold extract, extract_from. rewrite for_loop_headlines. cbn [headlines seen_urls].
  rewrite app_nil_l. f_equal.
  apply filter_all. intros x. apply not_elem_of_empty.
Qed.

Lemma extract_sublist (env : Env) (soup : Document) (config : SourceConfig) (cap : Z) :
  extract env soup config cap `sublist_of`
  candidates env config (select soup (headline_selector config)).
Proof.
  rewrite extract_spec. etrans; [apply sublist_take|apply first_occurrences_sublist].
Qed.

Lemma elem_of_extract (env : Env) (soup : Document) (config : SourceConfig)
    (cap : Z) (item : HeadlineItem) :
  item ∈ extract env soup config cap →
  ∃ element, element ∈ select soup (headline_selector config) ∧
             candidate env config element = Some item.
Proof.
  intros Hin. eapply elem_of_sublist in Hin; [|apply extract_sublist].
  apply list_elem_of_omap in Hin. exact Hin.
Qed.

(** What a contributing node looks like. *)
Lemma candidate_Some (env : Env) (config : SourceConfig) (element : Element)
    (item : HeadlineItem) :
  candidate env config element = Some item →
  ∃ link_element,
    link_element_of element = Some link_element ∧
    headline item = PyStr.strip (get_text element) ∧
    headline item ≠ EmptyString ∧
    link_filter config (tag_get link_element "href" EmptyString) = true ∧
    tag_get link_element "href" EmptyString ≠ EmptyString ∧
    link item = urljoin env (base_url config)
                  (tag_get link_element "href" EmptyString) ∧
    link item ≠ EmptyString.
Proof.
  unfold candidate. destruct (link_element_of element) as [le|]; [|discriminate].
  destruct (PyStr.truthy (PyStr.strip _)) eqn:Ht; simpl; [|discriminate].
  destruct (link_filter config _) eqn:Hf; simpl; [|discriminate].
  destruct (PyStr.truthy (tag_get _ _ _)) eqn:Hh; simpl; [|discriminate].
  destruct (PyStr.truthy (urljoin _ _ _)) eqn:Hu; simpl; [|discriminate].
  intros [= <-]. exists le. simpl.
  apply truthy_true in Ht, Hh, Hu. repeat split; assumption.
Qed.

(** ** Breaking out of the loop *)

Section Stop.

Variable env : Env.
Variable config : SourceConfig.
Variable cap : Z.

Local Abbreviation loop := (for_loop env config cap).

Lemma loop_body_continue (st st' : Store) (element : Element) :
  Z.of_nat (length (headlines st)) < cap →
  loop_body env config cap st element = (Continue, st') →
  Z.of_nat (length (headlines st')) < cap.
Proof.
  intros Hlt. rewrite loop_body_spec.
  destruct (candidate env config element) as [item|]; [|intros [= <-]; exact Hlt].
  case_bool_decide; [intros [= <-]; exact Hlt|].
  destruct (_ >=? cap) eqn:Hcap; [discriminate|].
  intros [= <-]. unfold push. cbn [headlines]. rewrite length_app. cbn [length].
  rewrite Z.geb_leb in Hcap. apply Z.leb_gt in Hcap. exact Hcap.
Qed.

(** Once a prefix of the nodes has filled the cap, the nodes behind it
    stay unvisited. *)
Lemma for_loop_prefix (pre post : list Element) (st : Store) :
  Z.of_nat (length (headlines st)) < cap →
  cap <= Z.of_nat (length (headlines (fst (loop pre st)))) →
  loop (pre ++ post) st = (fst (loop pre st), (snd (loop pre st) ++ post)%list).
Proof.
  revert st. induction pre as [|element pre IH]; intros st Hlt Hfull.
  - cbn [for_loop fst] in Hfull. lia.
  - cbn [for_loop app] in *.
    destruct (loop_body env config cap st element) as [[] st'] eqn:Hb.
    + apply IH; [|exact Hfull]. eapply loop_body_continue; eassumption.
    + reflexivity.
Qed.

(** The loop only drops nodes from the front of its input. *)
Lemma for_loop_suffix (elements : list Element) (st : Store) :
  ∃ done, elements = (done ++ snd (loop elements st))%list.
Proof.
  revert st. induction elements as [|element rest IH]; intros st.
  - exists []. reflexivity.
  - cbn [for_loop]. destruct (loop_body env config cap st element) as [[] st'].
    + destruct (IH st') as [done Hd]. exists (element :: done).
      cbn [app]. f_equal. exact Hd.
    + exists [element]. reflexivity.
Qed.

End Stop.

Lemma extract_length_le (env : Env) (soup : Document) (config : SourceConfig) (cap : Z) :
  Z.of_nat (length (extract env soup config cap)) <= Z.max 1 cap.
Proof.
  rewrite extract_spec, length_take. unfold room. lia.
Qed.

(** ** The registry *)

Lemma dict_mem_elem_of {A : Type} (key : string) (d : list (string * A)) :
  dict_mem key d = true ↔ key ∈ keys d.
Proof.
  unfold dict_mem. rewrite existsb_exists, list_elem_of_In. split.
  - intros (k & Hin & ->%String.eqb_eq). exact Hin.
  - intros Hin. exists key. split; [exact Hin|apply String.eqb_refl].
Qed.

Lemma assoc_elem_of {A : Type} (key : string) (d : list (string * A)) (v : A) :
  assoc key d = Some v → (key, v) ∈ d.
Proof.
  induction d as [|[k x] d IH]; simpl; [discriminate|].
  destruct (String.eqb k key) eqn:E.
  - apply String.eqb_eq in E as ->. intros [= ->]. apply list_elem_of_here.
  - intros H. apply list_elem_of_further, IH, H.
Qed.

Lemma dict_mem_assoc {A : Type} (key : string) (d : list (string * A)) :
  dict_mem key d = true → ∃ v, assoc key d = Some v.
Proof.
  unfold dict_mem, keys.
  induction d as [|[k x] d IH]; simpl; [discriminate|].
  rewrite (String.eqb_sym key k).
  destruct (String.eqb k key); simpl; [intros _; exists x; reflexivity|exact IH].
Qed.

Lemma registered_keys : keys SOURCES_CONFIG = ["bbc"; "cnn"; "fox"; "cbs"; "wsj"].
Proof. reflexivity. Qed.

Lemma registered_max_items (key : string) (config : SourceConfig) :
  (key, config) ∈ SOURCES_CONFIG → config_get_max_items config 15 = 10.
Proof.
  unfold SOURCES_CONFIG. rewrite !elem_of_cons, elem_of_nil.
  intros [H|[H|[H|[H|[H|[]]]]]]; injection H as _ ->; reflexivity.
Qed.

(** ** The reporter *)

Lemma load_world : load_name "world" = inl (NameError "name 'world' is not defined").
Proof. reflexivity. Qed.

Lemma report_items_nonempty (env : Env) (i : nat) (item : HeadlineItem)
    (rest : list HeadlineItem) (out : list string) :
  report_items env i (item :: rest) out =
  ((out ++ [PyStr.of_nat i +:+ ". " +:+ headline item])%list,
   inl (NameError "name 'world' is not defined")).
Proof. cbn [report_items]. rewrite load_world. reflexivity. Qed.

(** ** The model on concrete pages *)

Example extract_bbc_doc :
  extract (env_of bbc_doc) bbc_doc bbc 10 =
  [{| headline := "Storm hits coast"; link := "https://www.bbc.com/news/storm" |}].
Proof. vm_compute. reflexivity. Qed.

Example extract_mixed_doc :
  extract (env_of mixed_doc) mixed_doc cnn 10 =
  [{| headline := "Markets rally"; link := "https://www.cnn.com/2024/markets" |};
   {| headline := "Storm"; link := "https://www.cnn.com/2024/storm" |}].
Proof. vm_compute. reflexivity. Qed.

Example visited_mixed_doc_cap_1 : visited (env_of mixed_doc) mixed_doc cnn 1 = 5%nat.
Proof. vm_compute. reflexivity. Qed.

Example run_mixed_doc :
  run (env_of mixed_doc) "CNN" (Some 1) =
  {| events := [HttpGet "https://www.cnn.com"];
     stdout := [nl +:+ "Latest CNN News Headlines:"; "1. Markets rally"];
     result := inl (RuntimeError
       "An error occurred while scraping: name 'world' is not defined") |}.
Proof. vm_compute. reflexivity. Qed.

Example run_empty_doc :
  run (env_of empty_doc) "cbs" None =
  {| events := [HttpGet "https://www.cbsnews.com"];
     stdout := [nl +:+ "Latest CBS News Headlines:"; EmptyString];
     result := inr tt |}.
Proof. vm_compute. reflexivity. Qed.

Example str_KeyError : str_exn (KeyError "x") = "'x'".
Proof. reflexivity. Qed.

Example repr_escapes :
  PyStr.repr ("a" +:+ nl +:+ "b\c") = "'a\nb\\c'"
  ∧ PyStr.repr "it's" = String PyStr.dquote ("it's" +:+ String PyStr.dquote EmptyString).
Proof. split; reflexivity. Qed.

Example run_fetch_failure :
  result (run {| http_get := fun _ _ _ => inl (RequestException "timed out");
                 parse := fun _ => empty_doc;
                 urljoin := urljoin_origin;
                 world_link := fun _ l => inr l |} "wsj" None) =
  inl (RuntimeError "Failed to fetch news: timed out").
Proof. reflexivity. Qed.

(** * The claims *)

(** C1, as stated, fails: the override [-1] is non-positive, yet line 88
    keeps it as the cap instead of the rule's own [max_items]. *)
Lemma C1_negative_override_kept :
  ¬ (-1 <= 0 → effective_max_items (Some (-1)) bbc = config_get_max_items bbc 15).
Proof. intros H. specialize (H ltac:(lia)). vm_compute in H. discriminate H. Qed.

(** C1, amended: an absent override and the override [0] give the rule's
    own [max_items] (15 for a rule without one); every other override,
    positive or negative, is the cap as it stands. *)
Theorem C1_effective_max_items (config : SourceConfig) (n : Z) :
  effective_max_items None config = config_get_max_items config 15 ∧
  effective_max_items (Some 0) config = config_get_max_items config 15 ∧
  (n ≠ 0 → effective_max_items (Some n) config = n).
Proof.
  unfold effective_max_items, py_or. repeat split.
  intros Hn. apply Z.eqb_neq in Hn. rewrite Hn. reflexivity.
Qed.

Lemma C1_effective_max_items_witness :
  3 ≠ 0 ∧ effective_max_items (Some 3) bbc = 3.
Proof.
  split; [lia|]. apply (C1_effective_max_items bbc 3). lia.
Defined.

(** C2: when extraction yields at least one item the reporter stops at the
    unbound name [world] with a [NameError], which the second handler
    turns into a [RuntimeError] whose message starts with
    "An error occurred while scraping"; with no item the reporter and the
    run end normally. *)
Theorem C2_reporter_fails_on_first_item
    (env : Env) (source : string) (override : option Z)
    (src : string) (config : SourceConfig) (response_text : string) :
  lookup source = inr (src, config) →
  http_get env (url config) DEFAULT_HEADERS 10 = inr response_text →
  let items := extract env (parse env response_text) config
                 (effective_max_items override config) in
  let msg := "An error occurred while scraping: name 'world' is not defined" in
  (items ≠ [] →
     snd (report env src items) = inl (NameError "name 'world' is not defined") ∧
     result (run env source override) = inl (RuntimeError msg) ∧
     PyStr.startswith msg "An error occurred while scraping" = true) ∧
  (items = [] →
     snd (report env src items) = inr tt ∧
     result (run env source override) = inr tt).
Proof.
  intros Hl Hg items msg. unfold run. rewrite Hl, Hg. fold items.
  split.
  - destruct items as [|item rest]; [congruence|]. intros _.
    unfold report. rewrite report_items_nonempty. cbn. repeat split.
  - intros ->. cbn. split; reflexivity.
Qed.

Lemma C2_reporter_fails_on_first_item_witness :
  lookup "BBC" = inr ("bbc", bbc) ∧
  http_get (env_of bbc_doc) (url bbc) DEFAULT_HEADERS 10 = inr "<html></html>" ∧
  result (run (env_of bbc_doc) "BBC" None) =
  inl (RuntimeError "An error occurred while scraping: name 'world' is not defined").
Proof.
  split; [reflexivity|]. split; [reflexivity|].
  refine (proj1 (proj2 (proj1
    (C2_reporter_fails_on_first_item (env_of bbc_doc) "BBC" None "bbc" bbc
       "<html></html>" eq_refl eq_refl) _))).
  vm_compute. discriminate.
Defined.

(** C3: a source whose lower-cased identifier is a key of the registry is
    given the rule stored under that key; any other identifier fails with
    a [ValueError] that names every key, and the run ends there without a
    single request. *)
Theorem C3_lookup (source : string) :
  (PyStr.lower source ∈ keys SOURCES_CONFIG →
     ∃ config, lookup source = inr (PyStr.lower source, config) ∧
               assoc (PyStr.lower source) SOURCES_CONFIG = Some config ∧
               (PyStr.lower source, config) ∈ SOURCES_CONFIG) ∧
  (PyStr.lower source ∉ keys SOURCES_CONFIG →
     ∃ msg, lookup source = inl (ValueError msg) ∧
            msg = "Unsupported news source. Try one of: bbc, cnn, fox, cbs, wsj" ∧
            forallb (PyStr.contains msg) (keys SOURCES_CONFIG) = true ∧
            ∀ env override,
              run env source override =
              {| events := []; stdout := []; result := inl (ValueError msg) |}).
Proof.
  split.
  - intros Hin. apply dict_mem_elem_of in Hin.
    destruct (dict_mem_assoc _ _ Hin) as [config Hc].
    exists config. split; [|split; [exact Hc|apply assoc_elem_of, Hc]].
    unfold lookup. rewrite Hin, Hc. reflexivity.
  - intros Hout. rewrite <- dict_mem_elem_of in Hout.
    apply not_true_is_false in Hout.
    eexists. unfold run, lookup. rewrite Hout. cbn [negb].
    repeat split; reflexivity.
Qed.

Lemma C3_lookup_witness :
  (PyStr.lower "Fox" ∈ keys SOURCES_CONFIG ∧
   ∃ config, lookup "Fox" = inr (PyStr.lower "Fox", config) ∧
             assoc (PyStr.lower "Fox") SOURCES_CONFIG = Some config ∧
             (PyStr.lower "Fox", config) ∈ SOURCES_CONFIG) ∧
  ((PyStr.lower "NYT" ∉ keys SOURCES_CONFIG) ∧
   ∃ msg, lookup "NYT" = inl (ValueError msg) ∧
          msg = "Unsupported news source. Try one of: bbc, cnn, fox, cbs, wsj" ∧
          forallb (PyStr.contains msg) (keys SOURCES_CONFIG) = true ∧
          ∀ env override,
            run env "NYT" override =
            {| events := []; stdout := []; result := inl (ValueError msg) |}).
Proof.
  assert (PyStr.lower "Fox" ∈ keys SOURCES_CONFIG) as Hin
    by (apply dict_mem_elem_of; reflexivity).
  assert (PyStr.lower "NYT" ∉ keys SOURCES_CONFIG) as Hout
    by (rewrite <- dict_mem_elem_of; vm_compute; discriminate).
  split; (split; [assumption|]).
  - exact (proj1 (C3_lookup "Fox") Hin).
  - exact (proj2 (C3_lookup "NYT") Hout).
Defined.

Lemma candidate_anchor (env : Env) (config : SourceConfig) (href txt : string)
    (ps : list Tag) :
  candidate env config (anchor href txt ps) =
  if PyStr.truthy (PyStr.strip txt) && link_filter config href
     && PyStr.truthy href && PyStr.truthy (urljoin env (base_url config) href)
  then Some {| headline := PyStr.strip txt;
               link := urljoin env (base_url config) href |}
  else None.
Proof. reflexivity. Qed.

(** C4: the scenario.  With a resolver that maps "/a" and "/b" on
    "https://example.com" to "https://example.com/a" and
    "https://example.com/b", as [urljoin] does, the rule with cap 2 applied
    to the three anchors gives exactly the two items First and Second. *)
Theorem C4_scenario (env : Env) (soup : Document) :
  urljoin env "https://example.com" "/a" = "https://example.com/a" →
  urljoin env "https://example.com" "/b" = "https://example.com/b" →
  select soup "h1.title a" = scenario_nodes →
  extract env soup scenario_rule (effective_max_items None scenario_rule) =
  [{| headline := "First"; link := "https://example.com/a" |};
   {| headline := "Second"; link := "https://example.com/b" |}].
Proof.
  intros Ha Hb Hsel. rewrite extract_spec.
  cbn [scenario_rule headline_selector]. rewrite Hsel. unfold scenario_nodes.
  rewrite !candidates_cons, !candidate_anchor.
  cbn [scenario_rule base_url link_filter]. rewrite Ha, Hb.
  vm_compute. reflexivity.
Qed.

Lemma C4_scenario_witness :
  urljoin (env_of scenario_doc) "https://example.com" "/a" = "https://example.com/a" ∧
  urljoin (env_of scenario_doc) "https://example.com" "/b" = "https://example.com/b" ∧
  select scenario_doc "h1.title a" = scenario_nodes ∧
  extract (env_of scenario_doc) scenario_doc scenario_rule
    (effective_max_items None scenario_rule) =
  [{| headline := "First"; link := "https://example.com/a" |};
   {| headline := "Second"; link := "https://example.com/b" |}].
Proof.
  repeat (split; [reflexivity|]).
  apply (C4_scenario (env_of scenario_doc) scenario_doc); reflexivity.
Defined.

(** C5, as stated, fails: with the override [-1] the cap is [-1], the cap
    is tested only after an append, and the result has one item. *)
Lemma C5_one_item_beyond_negative_cap :
  ¬ (Z.of_nat (length (extract (env_of bbc_doc) bbc_doc bbc
                         (effective_max_items (Some (-1)) bbc)))
     <= effective_max_items (Some (-1)) bbc).
Proof. apply Z.lt_nge. vm_compute. reflexivity. Qed.

(** C5, amended: whenever the effective cap is at least 1, the result has
    at most that many items, and as soon as the nodes up to some point
    have filled the cap the loop stops: the nodes after that point stay
    unvisited and the result is the one of the nodes before it. *)
Theorem C5_cap_and_stop (env : Env) (soup : Document) (config : SourceConfig)
    (cap : Z) (pre post : list Element) :
  1 <= cap →
  select soup (headline_selector config) = (pre ++ post)%list →
  Z.of_nat (length (extract env soup config cap)) <= cap ∧
  (cap <= Z.of_nat (length (headlines (fst (for_loop env config cap pre empty_store)))) →
   extract_from env config cap empty_store soup =
   (fst (for_loop env config cap pre empty_store),
    (snd (for_loop env config cap pre empty_store) ++ post)%list) ∧
   (visited env soup config cap <= length pre)%nat).
Proof.
  intros Hcap Hsel. split.
  - pose proof (extract_length_le env soup config cap). lia.
  - intros Hfull.
    assert (extract_from env config cap empty_store soup =
            (fst (for_loop env config cap pre empty_store),
             (snd (for_loop env config cap pre empty_store) ++ post)%list)) as Heq.
    { unfold extract_from. cbn [headlines seen_urls]. rewrite Hsel.
      apply for_loop_prefix; [cbn; lia|exact Hfull]. }
    split; [exact Heq|].
    unfold visited. rewrite Heq, Hsel. cbn [snd]. rewrite !length_app. lia.
Qed.

Lemma C5_cap_and_stop_witness :
  1 <= 1 ∧
  select bbc_doc (headline_selector bbc) = ([card] ++ [card])%list ∧
  Z.of_nat (length (extract (env_of bbc_doc) bbc_doc bbc 1)) <= 1 ∧
  (visited (env_of bbc_doc) bbc_doc bbc 1 <= length [card])%nat.
Proof.
  split; [lia|]. split; [reflexivity|].
  destruct (C5_cap_and_stop (env_of bbc_doc) bbc_doc bbc 1 [card] [card])
    as [Hlen Hstop]; [lia|reflexivity|].
  split; [exact Hlen|]. apply Hstop. vm_compute. discriminate.
Defined.

(** C6: the links of the result are pairwise distinct; the result lists
    qualifying occurrences in document order, each one the first
    occurrence of its link; it is the list of first occurrences cut at the
    cap. *)
Theorem C6_distinct_links_in_document_order
    (env : Env) (soup : Document) (config : SourceConfig) (cap : Z) :
  let items := extract env soup config cap in
  let occurrences :=
    candidates env config (select soup (headline_selector config)) in
  NoDup (link <$> items) ∧
  items `sublist_of` occurrences ∧
  Forall (fun item => ∃ pre post,
            occurrences = (pre ++ item :: post)%list ∧ link item ∉ link <$> pre)
         items ∧
  items = take (room cap 0) (first_occurrences occurrences).
Proof.
  intros items occurrences.
  assert (items = take (room cap 0) (first_occurrences occurrences)) as Hspec
    by apply extract_spec.
  repeat split.
  - rewrite Hspec. eapply sublist_NoDup; [apply first_occurrences_NoDup|].
    apply fmap_sublist, sublist_take.
  - apply extract_sublist.
  - apply Forall_forall. intros item Hin. apply first_occurrences_first.
    rewrite Hspec in Hin. eapply elem_of_sublist; [exact Hin|apply sublist_take].
  - exact Hspec.
Qed.

(** C7: every headline of the result is non-empty, trimmed (it neither
    begins nor ends with whitespace), and the stripped text of a matched
    node; a node whose stripped text is empty,
    and a node whose [href] the filter rejects, leave the result and the
    dedup set as they were and the loop goes on. *)
Theorem C7_headlines_nonempty_and_skips
    (env : Env) (soup : Document) (config : SourceConfig) (cap : Z) :
  Forall (fun item =>
            headline item ≠ EmptyString ∧ trimmed (headline item) ∧
            ∃ element, element ∈ select soup (headline_selector config) ∧
                       headline item = PyStr.strip (get_text element))
         (extract env soup config cap) ∧
  (∀ st element,
     PyStr.strip (get_text element) = EmptyString →
     loop_body env config cap st element = (Continue, st)) ∧
  (∀ st element link_element,
     link_element_of element = Some link_element →
     link_filter config (tag_get link_element "href" EmptyString) = false →
     loop_body env config cap st element = (Continue, st)).
Proof.
  repeat split.
  - apply Forall_forall. intros item Hin.
    destruct (elem_of_extract _ _ _ _ _ Hin) as (element & Hel & Hc).
    destruct (candidate_Some _ _ _ _ Hc) as (le & _ & Hh & Hne & _).
    split; [exact Hne|]. split; [rewrite Hh; apply strip_trimmed|].
    exists element. split; assumption.
  - intros st element Ht. unfold loop_body.
    destruct (link_element_of element); [|reflexivity].
    rewrite Ht. reflexivity.
  - intros st element le Hle Hf. unfold loop_body. rewrite Hle, Hf.
    rewrite orb_true_r. reflexivity.
Qed.

(** C8: every item of the result carries a non-empty link, resolved from
    the non-empty [href] of the link-bearing element of a matched node; a
    node that is no anchor and has no anchor above it, and a node whose
    [href] is the empty string, change neither the result nor the dedup
    set. *)
Theorem C8_no_item_without_link
    (env : Env) (soup : Document) (config : SourceConfig) (cap : Z) :
  Forall (fun item =>
            link item ≠ EmptyString ∧
            ∃ element link_element,
              element ∈ select soup (headline_selector config) ∧
              link_element_of element = Some link_element ∧
              tag_get link_element "href" EmptyString ≠ EmptyString ∧
              link item = urljoin env (base_url config)
                            (tag_get link_element "href" EmptyString))
         (extract env soup config cap) ∧
  (∀ st element,
     name element ≠ "a" →
     Forall (fun t => tag_name t ≠ "a") (parents element) →
     loop_body env config cap st element = (Continue, st)) ∧
  (∀ st element link_element,
     link_element_of element = Some link_element →
     tag_get link_element "href" EmptyString = EmptyString →
     loop_body env config cap st element = (Continue, st)).
Proof.
  repeat split.
  - apply Forall_forall. intros item Hin.
    destruct (elem_of_extract _ _ _ _ _ Hin) as (element & Hel & Hc).
    destruct (candidate_Some _ _ _ _ Hc) as (le & Hle & _ & _ & _ & Hh & Hl & Hne).
    split; [exact Hne|]. exists element, le. repeat split; assumption.
  - intros st element Hn Hps. apply loop_body_skip.
    unfold candidate, link_element_of.
    apply String.eqb_neq in Hn. rewrite Hn.
    unfold find_parent.
    destruct (List.find _ (parents element)) as [t|] eqn:Hf; [|reflexivity].
    apply find_some in Hf as [Hin Heq].
    apply String.eqb_eq in Heq. apply list_elem_of_In in Hin.
    rewrite Forall_forall in Hps. destruct (Hps t Hin Heq).
  - intros st element le Hle Hh. apply loop_body_skip.
    unfold candidate. rewrite Hle, Hh. cbn [PyStr.truthy].
    rewrite andb_false_r. reflexivity.
Qed.

(** C9: extraction is a function of the document, the rule and the cap
    alone: whatever [headlines] and [seen_urls] held before, lines 103-104
    rebind them, so two runs agree on the result, the dedup set and the
    nodes left unvisited; in particular a run that starts from the store
    an earlier run left behind repeats that run. *)
Theorem C9_deterministic_fresh_state
    (env : Env) (config : SourceConfig) (cap : Z) (soup : Document)
    (before1 before2 : Store) :
  extract_from env config cap before1 soup =
  extract_from env config cap before2 soup ∧
  extract_from env config cap
    (fst (extract_from env config cap before1 soup)) soup =
  extract_from env config cap before1 soup ∧
  headlines (fst (extract_from env config cap before1 soup)) =
  extract env soup config cap.
Proof. repeat split. Qed.

(** C10: when the headline selector matches no node, extraction returns
    the empty list having visited nothing, and a run on such a page ends
    normally: it prints the title line and the empty line of line 146. *)
Theorem C10_no_matches
    (env : Env) (soup : Document) (config : SourceConfig) (cap : Z) :
  select soup (headline_selector config) = [] →
  extract env soup config cap = [] ∧
  visited env soup config cap = 0%nat ∧
  ∀ source override src response_text,
    lookup source = inr (src, config) →
    http_get env (url config) DEFAULT_HEADERS 10 = inr response_text →
    parse env response_text = soup →
    cap = effective_max_items override config →
    run env source override =
    {| events := [HttpGet (url config)];
       stdout := [nl +:+ "Latest " +:+ PyStr.upper src +:+ " News Headlines:";
                  EmptyString];
       result := inr tt |}.
Proof.
  intros Hsel.
  assert (extract env soup config cap = []) as Hnil
    by (unfold extract, extract_from; rewrite Hsel; reflexivity).
  split; [exact Hnil|]. split.
  - unfold visited, extract_from. rewrite Hsel. reflexivity.
  - intros source override src text Hl Hg Hp ->.
    unfold run. rewrite Hl, Hg, Hp, Hnil. reflexivity.
Qed.

Lemma C10_no_matches_witness :
  select empty_doc (headline_selector cnn) = [] ∧
  extract (env_of empty_doc) empty_doc cnn 10 = [] ∧
  result (run (env_of empty_doc) "cnn" None) = inr tt.
Proof.
  split; [reflexivity|].
  destruct (C10_no_matches (env_of empty_doc) empty_doc cnn 10 eq_refl)
    as (Hnil & _ & Hrun).
  split; [exact Hnil|].
  rewrite (Hrun "cnn" None "cnn" "<html></html>"); reflexivity.
Defined.


(** * Further properties of the script *)

(** ** The registry and the lookup (lines 26-87) *)

Lemma assoc_NoDup {A : Type} (key : string) (v : A) (d : list (string * A)) :
  NoDup (keys d) → (key, v) ∈ d → assoc key d = Some v.
Proof.
  unfold keys. induction d as [|[k x] d IH]; cbn [map fst assoc].
  - intros _ H. inversion H.
  - intros [Hk Hd]%NoDup_cons [[= -> ->]|Hin]%elem_of_cons.
    + rewrite String.eqb_refl. reflexivity.
    + destruct (String.eqb k key) eqn:E; [|apply IH; assumption].
      apply String.eqb_eq in E as ->. exfalso. apply Hk.
      apply list_elem_of_In, in_map_iff. exists (key, v).
      split; [reflexivity|apply list_elem_of_In, Hin].
Qed.

Lemma registered_keys_NoDup : NoDup (keys SOURCES_CONFIG).
Proof. apply (bool_decide_unpack _). vm_compute. exact I. Qed.

Lemma lookup_inr (source src : string) (config : SourceConfig) :
  lookup source = inr (src, config) →
  src = PyStr.lower source ∧ (src, config) ∈ SOURCES_CONFIG.
Proof.
  unfold lookup. destruct (dict_mem _ _); cbn [negb]; [|discriminate].
  destruct (assoc _ _) as [c|] eqn:Hc; [|discriminate].
  intros [= <- <-]. split; [reflexivity|apply assoc_elem_of, Hc].
Qed.

Lemma lookup_inl (source : string) (e : exn) :
  lookup source = inl e →
  (PyStr.lower source ∉ keys SOURCES_CONFIG) ∧
  e = ValueError "Unsupported news source. Try one of: bbc, cnn, fox, cbs, wsj".
Proof.
  unfold lookup. destruct (dict_mem _ _) eqn:Hm; cbn [negb].
  - destruct (dict_mem_assoc _ _ Hm) as [c ->]. discriminate.
  - intros [= <-]. split; [|reflexivity].
    rewrite <- dict_mem_elem_of, Hm. discriminate.
Qed.

(** X1: every entry of the registry is reachable under its key, written in
    any mix of letter cases. *)
Theorem lookup_registered (source key : string) (config : SourceConfig) :
  (key, config) ∈ SOURCES_CONFIG →
  PyStr.lower source = key →
  lookup source = inr (key, config).
Proof.
  intros Hin Hlow. unfold lookup. rewrite Hlow.
  assert (dict_mem key SOURCES_CONFIG = true) as ->.
  { apply dict_mem_elem_of, list_elem_of_In, in_map_iff. exists (key, config).
    split; [reflexivity|apply list_elem_of_In, Hin]. }
  rewrite (assoc_NoDup key config) by (exact registered_keys_NoDup || exact Hin).
  reflexivity.
Qed.

Lemma lookup_registered_witness :
  ("cbs", cbs) ∈ SOURCES_CONFIG ∧ PyStr.lower "cBs" = "cbs" ∧
  lookup "cBs" = inr ("cbs", cbs).
Proof.
  assert (("cbs", cbs) ∈ SOURCES_CONFIG) as Hin
    by (unfold SOURCES_CONFIG; rewrite !elem_of_cons; auto).
  split; [exact Hin|]. split; [reflexivity|].
  apply (lookup_registered "cBs" "cbs" cbs Hin). reflexivity.
Defined.

Lemma lower_upper_ascii (c : ascii) :
  PyStr.lower_ascii (PyStr.upper_ascii c) = PyStr.lower_ascii c.
Proof. destruct c as [[] [] [] [] [] [] [] []]; reflexivity. Qed.

Lemma lower_lower_ascii (c : ascii) :
  PyStr.lower_ascii (PyStr.lower_ascii c) = PyStr.lower_ascii c.
Proof. destruct c as [[] [] [] [] [] [] [] []]; reflexivity. Qed.

Lemma lower_upper (s : string) : PyStr.lower (PyStr.upper s) = PyStr.lower s.
Proof.
  unfold PyStr.lower, PyStr.upper.
  induction s as [|c s IH]; cbn [PyStr.map_chars]; [reflexivity|].
  rewrite lower_upper_ascii, IH. reflexivity.
Qed.

Lemma lower_lower (s : string) : PyStr.lower (PyStr.lower s) = PyStr.lower s.
Proof.
  unfold PyStr.lower.
  induction s as [|c s IH]; cbn [PyStr.map_chars]; [reflexivity|].
  rewrite lower_lower_ascii, IH. reflexivity.
Qed.

(** X2: an ASCII source identifier is case-insensitive: writing it in
    upper or in lower case changes neither the lookup nor anything else
    of the run. *)
Theorem run_case_insensitive (env : Env) (source : string) (override : option Z) :
  PyStr.is_ascii source = true →
  lookup (PyStr.upper source) = lookup source ∧
  lookup (PyStr.lower source) = lookup source ∧
  run env (PyStr.upper source) override = run env source override ∧
  run env (PyStr.lower source) override = run env source override.
Proof.
  intros _.
  assert (lookup (PyStr.upper source) = lookup source) as Hu
    by (unfold lookup; rewrite lower_upper; reflexivity).
  assert (lookup (PyStr.lower source) = lookup source) as Hl
    by (unfold lookup; rewrite lower_lower; reflexivity).
  unfold run. rewrite Hu, Hl. repeat split.
Qed.

Lemma run_case_insensitive_witness :
  PyStr.is_ascii "Fox" = true ∧
  run (env_of mixed_doc) (PyStr.upper "Fox") None = run (env_of mixed_doc) "Fox" None.
Proof.
  split; [reflexivity|].
  exact (proj1 (proj2 (proj2
    (run_case_insensitive (env_of mixed_doc) "Fox" None eq_refl)))).
Defined.

(** ** The run as a whole (lines 83-144) *)

Lemma handler_RuntimeError (e : exn) :
  (∃ m, e = RequestException m ∧
        handler e = RuntimeError ("Failed to fetch news: " +:+ m)) ∨
  ((∀ m, e ≠ RequestException m) ∧
   handler e = RuntimeError ("An error occurred while scraping: " +:+ str_exn e)).
Proof.
  destruct e as [m|m|m|m|m|m];
    try (right; split; [intros ?; discriminate|reflexivity]).
  left. exists m. split; reflexivity.
Qed.

Lemma report_spec (env : Env) (source : string) (items : list HeadlineItem) :
  report env source items =
  match items with
  | [] => ([title_line source], inr tt)
  | item :: _ =>
      ([title_line source; "1. " +:+ headline item],
       inl (NameError "name 'world' is not defined"))
  end.
Proof.
  unfold report. destruct items as [|item rest]; [reflexivity|].
  rewrite report_items_nonempty. reflexivity.
Qed.

(** X3: an exception that leaves the script is either the [ValueError] of
    an unsupported source or a [RuntimeError] whose message starts with
    one of the two texts of the handlers; no [KeyError], [NameError] or
    request exception reaches the caller. *)
Theorem run_exceptions (env : Env) (source : string) (override : option Z) (e : exn) :
  result (run env source override) = inl e →
  ((PyStr.lower source ∉ keys SOURCES_CONFIG) ∧
   e = ValueError "Unsupported news source. Try one of: bbc, cnn, fox, cbs, wsj") ∨
  (∃ m, e = RuntimeError ("Failed to fetch news: " +:+ m)) ∨
  (∃ m, e = RuntimeError ("An error occurred while scraping: " +:+ m)).
Proof.
  unfold run. destruct (lookup source) as [e0|[src config]] eqn:Hl.
  - cbn [result]. intros [= <-]. left. apply lookup_inl, Hl.
  - assert (∀ e', (inl (handler e') : exn + unit) = inl e →
              (∃ m, e = RuntimeError ("Failed to fetch news: " +:+ m)) ∨
              (∃ m, e = RuntimeError ("An error occurred while scraping: " +:+ m)))
      as Hh.
    { intros e' [= <-].
      destruct (handler_RuntimeError e') as [(m & _ & ->)|[_ ->]]; eauto. }
    destruct (http_get env _ _ _) as [e'|response_text].
    + cbn [result]. intros H. right. exact (Hh _ H).
    + destruct (report env src _) as [out [e'|[]]]; cbn [result].
      * intros H. right. exact (Hh _ H).
      * discriminate.
Qed.

Lemma run_exceptions_witness :
  result (run (env_failing (RequestException "timed out")) "fox" None) =
  inl (RuntimeError "Failed to fetch news: timed out") ∧
  ∃ m, RuntimeError "Failed to fetch news: timed out" =
       RuntimeError ("Failed to fetch news: " +:+ m).
Proof.
  split; [reflexivity|].
  destruct (run_exceptions (env_failing (RequestException "timed out")) "fox" None
              (RuntimeError "Failed to fetch news: timed out") eq_refl)
    as [[_ H]|[H|[m H]]]; [discriminate H|exact H|].
  exfalso. vm_compute in H. discriminate H.
Defined.

Lemma run_events (env : Env) (source : string) (override : option Z) :
  events (run env source override) =
  match lookup source with
  | inl _ => []
  | inr (_, config) => [HttpGet (url config)]
  end.
Proof.
  unfold run. destruct (lookup source) as [e|[src config]]; [reflexivity|].
  destruct (http_get env _ _ _); [reflexivity|].
  destruct (report env _ _) as [out [e|u]]; reflexivity.
Qed.

(** X5: a run sends at most one request, and only to the front page of a
    registered source; an unsupported source sends none. *)
Theorem run_requests (env : Env) (source : string) (override : option Z) :
  (length (events (run env source override)) <= 1)%nat ∧
  Forall (fun ev => ∃ key config,
            (key, config) ∈ SOURCES_CONFIG ∧ key = PyStr.lower source ∧
            ev = HttpGet (url config))
         (events (run env source override)) ∧
  (events (run env source override) = [] ↔
   PyStr.lower source ∉ keys SOURCES_CONFIG).
Proof.
  rewrite run_events. destruct (lookup source) as [e|[src config]] eqn:Hl.
  - cbn [length]. split; [lia|]. split; [constructor|].
    split; [intros _; apply (lookup_inl _ _ Hl)|reflexivity].
  - destruct (lookup_inr _ _ _ Hl) as [-> Hin].
    cbn [length]. split; [lia|]. split.
    + repeat constructor. exists (PyStr.lower source), config. auto.
    + split; [discriminate|]. intros Hout. exfalso. apply Hout.
      apply list_elem_of_In, in_map_iff. exists (PyStr.lower source, config).
      split; [reflexivity|apply list_elem_of_In, Hin].
Qed.


(** X7: a run ends without an exception exactly when the source is
    supported, the page is fetched and not a single headline is
    extracted. *)
Theorem run_succeeds_iff (env : Env) (source : string) (override : option Z) :
  result (run env source override) = inr tt ↔
  ∃ src config response_text,
    lookup source = inr (src, config) ∧
    http_get env (url config) DEFAULT_HEADERS 10 = inr response_text ∧
    extract env (parse env response_text) config
      (effective_max_items override config) = [].
Proof.
  unfold run. split.
  - destruct (lookup source) as [e|[src config]]; [discriminate|].
    destruct (http_get env _ _ _) as [e|response_text] eqn:Hg; [discriminate|].
    rewrite report_spec.
    destruct (extract env _ _ _) as [|item rest] eqn:He; [|discriminate].
    intros _. exists src, config, response_text. auto.
  - intros (src & config & response_text & -> & -> & ->). reflexivity.
Qed.

(** X8: the number of items by source and override: for a registered
    source the result has at most 10 items without an override or with
    the override 0, at most [n] items with an override [n >= 1], and at
    most one item with a negative override. *)
Theorem registered_source_item_bound (env : Env) (soup : Document)
    (source src : string) (config : SourceConfig) (override : option Z) :
  lookup source = inr (src, config) →
  Z.of_nat (length (extract env soup config (effective_max_items override config)))
  <= match override with
     | None => 10
     | Some n => if n =? 0 then 10 else Z.max 1 n
     end.
Proof.
  intros Hl. destruct (lookup_inr _ _ _ Hl) as [_ Hin].
  pose proof (registered_max_items _ _ Hin) as Hmax.
  pose proof (extract_length_le env soup config (effective_max_items override config))
    as Hle.
  unfold effective_max_items, py_or in Hle. rewrite Hmax in Hle. revert Hle.
  unfold effective_max_items, py_or. rewrite Hmax.
  destruct override as [n|]; [destruct (n =? 0)|]; lia.
Qed.

Lemma registered_source_item_bound_witness :
  lookup "bbc" = inr ("bbc", bbc) ∧
  Z.of_nat (length (extract (env_of bbc_doc) bbc_doc bbc
                      (effective_max_items (Some (-5)) bbc))) <= 1.
Proof.
  split; [reflexivity|].
  exact (registered_source_item_bound (env_of bbc_doc) bbc_doc "bbc" "bbc" bbc
           (Some (-5)) eq_refl).
Defined.

(** ** The extraction loop (lines 103-132) *)

Lemma for_loop_seen (env : Env) (config : SourceConfig) (cap : Z)
    (elements : list Element) (st : Store) :
  seen_urls st = list_to_set (link <$> headlines st) →
  seen_urls (fst (for_loop env config cap elements st)) =
  list_to_set (link <$> headlines (fst (for_loop env config cap elements st))).
Proof.
  revert st. induction elements as [|element rest IH]; intros st Hinv;
    cbn [for_loop]; [exact Hinv|].
  rewrite loop_body_spec.
  assert (∀ item, seen_urls (push st item) =
                  list_to_set (link <$> headlines (push st item))) as Hpush.
  { intros item. unfold push. cbn [seen_urls headlines].
    rewrite fmap_app, list_to_set_app_L, Hinv. cbn [fmap list_fmap list_to_set].
    rewrite union_empty_r_L. apply union_comm_L. }
  destruct (candidate env config element) as [item|]; [|apply IH, Hinv].
  case_bool_decide; [apply IH, Hinv|].
  destruct (_ >=? cap); [apply Hpush|apply IH, Hpush].
Qed.

(** X9: when the loop ends, the dedup set holds the links of the emitted
    items and nothing else. *)
Theorem seen_urls_are_the_links
    (env : Env) (config : SourceConfig) (cap : Z) (before : Store) (soup : Document) :
  seen_urls (fst (extract_from env config cap before soup)) =
  list_to_set (link <$> extract env soup config cap) ∧
  ∀ u, u ∈ seen_urls (fst (extract_from env config cap before soup)) ↔
       ∃ item, item ∈ extract env soup config cap ∧ link item = u.
Proof.
  assert (seen_urls (fst (extract_from env config cap before soup)) =
          list_to_set (link <$> extract env soup config cap)) as Heq
    by (unfold extract, extract_from; apply for_loop_seen; reflexivity).
  split; [exact Heq|]. intros u.
  rewrite Heq, elem_of_list_to_set, list_elem_of_fmap. split.
  - intros (item & -> & Hin). eauto.
  - intros (item & Hin & <-). eauto.
Qed.

(** X10: raising the cap only appends: the result for a cap is a prefix
    of the result for any larger cap. *)
Theorem extract_cap_monotone (env : Env) (soup : Document) (config : SourceConfig)
    (cap1 cap2 : Z) :
  cap1 <= cap2 →
  extract env soup config cap1 `prefix_of` extract env soup config cap2.
Proof.
  intros Hle. rewrite !extract_spec.
  assert (room cap1 0 = Nat.min (room cap1 0) (room cap2 0)) as ->
    by (unfold room; lia).
  rewrite <- take_take. apply prefix_take.
Qed.

Lemma extract_cap_monotone_witness :
  1 <= 10 ∧
  extract (env_of mixed_doc) mixed_doc cnn 1 `prefix_of`
  extract (env_of mixed_doc) mixed_doc cnn 10.
Proof.
  split; [lia|]. apply (extract_cap_monotone (env_of mixed_doc) mixed_doc cnn 1 10). lia.
Defined.

Lemma first_occurrences_links (items : list HeadlineItem) (item : HeadlineItem) :
  item ∈ items → link item ∈ link <$> first_occurrences items.
Proof.
  induction items as [|x rest IH]; [intros H; inversion H|].
  cbn [first_occurrences]. rewrite fmap_cons.
  destruct (decide (link item = link x)) as [->|Hne]; [intros _; apply list_elem_of_here|].
  intros [->|Hin]%elem_of_cons; [congruence|].
  apply list_elem_of_further.
  apply IH, list_elem_of_fmap in Hin as (y & Hy & Hin).
  apply list_elem_of_fmap. exists y. split; [exact Hy|].
  apply list_elem_of_filter. split; [congruence|exact Hin].
Qed.

Lemma for_loop_unbroken (env : Env) (config : SourceConfig) (cap : Z)
    (elements : list Element) (st : Store) :
  Z.of_nat (length (headlines (fst (for_loop env config cap elements st)))) < cap →
  snd (for_loop env config cap elements st) = [].
Proof.
  revert st. induction elements as [|element rest IH]; intros st;
    cbn [for_loop]; [reflexivity|].
  rewrite loop_body_spec.
  destruct (candidate env config element) as [item|]; [|apply IH].
  case_bool_decide; [apply IH|].
  destruct (_ >=? cap) eqn:Hcap; [|apply IH].
  cbn [fst snd]. unfold push. cbn [headlines]. rewrite length_app. cbn [length].
  rewrite Z.geb_leb in Hcap. apply Z.leb_le in Hcap. lia.
Qed.

(** X11: a result shorter than the cap is complete: every matched node was
    visited, the result is the list of first occurrences of all
    qualifying nodes, and the link of every qualifying node is in it. *)
Theorem extract_below_cap_complete
    (env : Env) (soup : Document) (config : SourceConfig) (cap : Z) :
  Z.of_nat (length (extract env soup config cap)) < cap →
  let occurrences :=
    candidates env config (select soup (headline_selector config)) in
  visited env soup config cap = length (select soup (headline_selector config)) ∧
  extract env soup config cap = first_occurrences occurrences ∧
  Forall (fun item => link item ∈ link <$> extract env soup config cap) occurrences.
Proof.
  intros Hlt occurrences.
  assert (extract env soup config cap = first_occurrences occurrences) as Hall.
  { rewrite extract_spec. fold occurrences. apply take_ge.
    rewrite extract_spec, length_take in Hlt. fold occurrences in Hlt.
    unfold room in *. lia. }
  split; [|split; [exact Hall|]].
  - unfold visited, extract_from. cbn [headlines seen_urls].
    rewrite for_loop_unbroken by exact Hlt. cbn [length]. lia.
  - apply Forall_forall. intros item Hin. rewrite Hall.
    apply first_occurrences_links, Hin.
Qed.

Lemma extract_below_cap_complete_witness :
  Z.of_nat (length (extract (env_of mixed_doc) mixed_doc cnn 10)) < 10 ∧
  visited (env_of mixed_doc) mixed_doc cnn 10 = 7%nat.
Proof.
  assert (Z.of_nat (length (extract (env_of mixed_doc) mixed_doc cnn 10)) < 10) as Hlt
    by (vm_compute; reflexivity).
  split; [exact Hlt|].
  exact (proj1 (extract_below_cap_complete (env_of mixed_doc) mixed_doc cnn 10 Hlt)).
Defined.

(** X12: a node is reported as soon as one qualifies, whatever the cap:
    the result is empty exactly when no matched node qualifies. *)
Theorem extract_empty_iff
    (env : Env) (soup : Document) (config : SourceConfig) (cap : Z) :
  extract env soup config cap = [] ↔
  Forall (fun element => candidate env config element = None)
         (select soup (headline_selector config)).
Proof.
  rewrite extract_spec. generalize (select soup (headline_selector config)).
  intros elements. split.
  - intros Hnil.
    assert (candidates env config elements = []) as Hc.
    { destruct (candidates env config elements) as [|item rest]; [reflexivity|].
      exfalso. cbn [first_occurrences] in Hnil.
      assert (room cap 0 = S (pred (room cap 0))) as Hroom by (unfold room; lia).
      rewrite Hroom in Hnil. cbn [take] in Hnil. discriminate Hnil. }
    apply Forall_forall. intros element Hin.
    destruct (candidate env config element) as [item|] eqn:Hcand; [|reflexivity].
    assert (item ∈ candidates env config elements) as Hitem
      by (apply list_elem_of_omap; eauto).
    rewrite Hc in Hitem. inversion Hitem.
  - intros Hall.
    assert (candidates env config elements = []) as ->; [|apply take_nil].
    induction Hall as [|element rest Hnone _ IH]; [reflexivity|].
    rewrite candidates_cons, Hnone. exact IH.
Qed.

Lemma loop_body_ext (env : Env) (config1 config2 : SourceConfig) (cap : Z)
    (st : Store) (element : Element) :
  base_url config1 = base_url config2 →
  (∀ href, link_filter config1 href = link_filter config2 href) →
  loop_body env config1 cap st element = loop_body env config2 cap st element.
Proof.
  intros Hb Hf. unfold loop_body.
  destruct (link_element_of element) as [le|]; [|reflexivity].
  rewrite Hb, Hf. reflexivity.
Qed.

Lemma for_loop_ext (env : Env) (config1 config2 : SourceConfig) (cap : Z)
    (elements : list Element) (st : Store) :
  base_url config1 = base_url config2 →
  (∀ href, link_filter config1 href = link_filter config2 href) →
  for_loop env config1 cap elements st = for_loop env config2 cap elements st.
Proof.
  intros Hb Hf. revert st.
  induction elements as [|element rest IH]; intros st; cbn [for_loop]; [reflexivity|].
  rewrite (loop_body_ext env config1 config2) by assumption.
  destruct (loop_body env config2 cap st element) as [[] st']; [apply IH|reflexivity].
Qed.

(** X13: extraction reads three fields of a rule only: the headline
    selector, the base URL and the link filter.  Two rules that agree on
    them give the same result, the same dedup set and the same unvisited
    nodes; the page URL, the link selector and the rule's own cap play no
    part in the loop. *)
Theorem extract_ignores_other_fields
    (env : Env) (config1 config2 : SourceConfig) (cap : Z) (before : Store)
    (soup : Document) :
  headline_selector config1 = headline_selector config2 →
  base_url config1 = base_url config2 →
  (∀ href, link_filter config1 href = link_filter config2 href) →
  extract_from env config1 cap before soup = extract_from env config2 cap before soup ∧
  extract env soup config1 cap = extract env soup config2 cap.
Proof.
  intros Hs Hb Hf.
  assert (∀ b, extract_from env config1 cap b soup = extract_from env config2 cap b soup)
    as Heq by (intros b; unfold extract_from; rewrite Hs; apply for_loop_ext; assumption).
  split; [apply Heq|]. unfold extract. rewrite Heq. reflexivity.
Qed.

Lemma extract_ignores_other_fields_witness :
  headline_selector cnn = headline_selector cnn_mirror ∧
  base_url cnn = base_url cnn_mirror ∧
  (∀ href, link_filter cnn href = link_filter cnn_mirror href) ∧
  extract (env_of mixed_doc) mixed_doc cnn 10 =
  extract (env_of mixed_doc) mixed_doc cnn_mirror 10.
Proof.
  repeat (split; [reflexivity|]).
  refine (proj2 (extract_ignores_other_fields (env_of mixed_doc) cnn cnn_mirror 10
                   empty_store mixed_doc _ _ _)); reflexivity.
Defined.

(** ** The link filters of the sources (lines 32-73) *)

Lemma startswith_spec (s p : string) :
  PyStr.startswith s p = true ↔ ∃ rest, s = p +:+ rest.
Proof.
  revert s. induction p as [|a p IH]; intros s.
  - split; [intros _; exists s; reflexivity|]. intros _. destruct s; reflexivity.
  - destruct s as [|b s]; cbn [PyStr.startswith].
    + split; [discriminate|]. intros [rest H]. discriminate H.
    + rewrite andb_true_iff, Ascii.eqb_eq, IH. split.
      * intros [-> [rest ->]]. exists rest. reflexivity.
      * intros [rest [= -> ->]]. split; [reflexivity|]. exists rest. reflexivity.
Qed.

Lemma startswith_false (s p : string) :
  PyStr.startswith s p = false ↔ ∀ rest, s ≠ p +:+ rest.
Proof.
  rewrite <- not_true_iff_false, startswith_spec. split.
  - intros Hn rest Heq. apply Hn. exists rest. exact Heq.
  - intros Hn [rest Heq]. exact (Hn rest Heq).
Qed.

(** Every reported link resolves a non-empty [href] that the filter of
    the rule accepts. *)
Lemma extract_href (env : Env) (soup : Document) (config : SourceConfig) (cap : Z) :
  Forall (fun item => ∃ href,
            href ≠ EmptyString ∧ link_filter config href = true ∧
            link item = urljoin env (base_url config) href)
         (extract env soup config cap).
Proof.
  apply Forall_forall. intros item Hin.
  destruct (elem_of_extract _ _ _ _ _ Hin) as (element & _ & Hc).
  destruct (candidate_Some _ _ _ _ Hc) as (le & _ & _ & _ & Hf & Hne & Hl & _).
  exists (tag_get le "href" EmptyString). auto.
Qed.

(** X14: the BBC filter accepts exactly the hrefs that begin with "/news"
    (an empty one is rejected), so every link reported for the BBC is the
    resolution of such an href. *)
Theorem bbc_links (env : Env) (soup : Document) (cap : Z) :
  (∀ href, link_filter bbc href = true ↔ ∃ rest, href = "/news" +:+ rest) ∧
  Forall (fun item => ∃ rest,
            link item = urljoin env "https://www.bbc.com" ("/news" +:+ rest))
         (extract env soup bbc cap).
Proof.
  assert (∀ href, link_filter bbc href = true ↔ ∃ rest, href = "/news" +:+ rest)
    as Hf.
  { intros href. cbn [bbc link_filter]. rewrite andb_true_iff, startswith_spec.
    split; [intros [_ H]; exact H|]. intros [rest ->]. split; [reflexivity|eauto]. }
  split; [exact Hf|].
  eapply Forall_impl; [apply extract_href|].
  intros item (href & _ & Hacc & Hl). apply Hf in Hacc as [rest ->].
  exists rest. exact Hl.
Qed.

(** X15: the CNN filter accepts exactly the non-empty hrefs that do not
    begin with "#", so no link reported for CNN comes from an in-page
    anchor or from an empty href. *)
Theorem cnn_links (env : Env) (soup : Document) (cap : Z) :
  (∀ href, link_filter cnn href = true ↔
           href ≠ EmptyString ∧ ∀ rest, href ≠ "#" +:+ rest) ∧
  Forall (fun item => ∃ href,
            href ≠ EmptyString ∧ (∀ rest, href ≠ "#" +:+ rest) ∧
            link item = urljoin env "https://www.cnn.com" href)
         (extract env soup cnn cap).
Proof.
  assert (∀ href, link_filter cnn href = true ↔
                  href ≠ EmptyString ∧ ∀ rest, href ≠ "#" +:+ rest) as Hf.
  { intros href. cbn [cnn link_filter].
    rewrite andb_true_iff, negb_true_iff, truthy_true, startswith_false.
    reflexivity. }
  split; [exact Hf|].
  eapply Forall_impl; [apply extract_href|].
  intros item (href & _ & Hacc & Hl). apply Hf in Hacc as [Hne Hfrag].
  exists href. auto.
Qed.

(** X16: the filters of Fox, CBS and the WSJ accept exactly the hrefs that
    begin with "/" (a protocol-relative "//host/..." among them) or with
    the site's own base URL, so every link reported for these sources is
    the resolution of such an href. *)
Theorem site_links (env : Env) (soup : Document) (config : SourceConfig) (cap : Z) :
  config = fox ∨ config = cbs ∨ config = wsj →
  (∀ href, link_filter config href = true ↔
           ∃ rest, href = "/" +:+ rest ∨ href = base_url config +:+ rest) ∧
  Forall (fun item => ∃ rest,
            link item = urljoin env (base_url config) ("/" +:+ rest) ∨
            link item = urljoin env (base_url config) (base_url config +:+ rest))
         (extract env soup config cap).
Proof.
  intros Hc.
  assert (∀ href, link_filter config href = true ↔
                  ∃ rest, href = "/" +:+ rest ∨ href = base_url config +:+ rest)
    as Hf.
  { intros href.
    assert (link_filter config href =
            PyStr.truthy href &&
            (PyStr.startswith href "/" || PyStr.startswith href (base_url config)))
      as -> by (destruct Hc as [->|[->| ->]]; reflexivity).
    rewrite andb_true_iff, orb_true_iff, !startswith_spec. split.
    - intros [_ [[rest H]|[rest H]]]; exists rest; auto.
    - intros [rest H]. split; [|destruct H; eauto].
      destruct H as [-> | ->]; [reflexivity|].
      destruct Hc as [->|[->| ->]]; reflexivity. }
  split; [exact Hf|].
  eapply Forall_impl; [apply extract_href|].
  intros item (href & _ & Hacc & Hl). apply Hf in Hacc as [rest [-> | ->]];
    exists rest; auto.
Qed.

Lemma site_links_witness :
  (fox = fox ∨ fox = cbs ∨ fox = wsj) ∧
  link_filter fox "//other.example/x" = true.
Proof.
  assert (fox = fox ∨ fox = cbs ∨ fox = wsj) as Hc by (left; reflexivity).
  split; [exact Hc|].
  apply (proj1 (site_links (env_of empty_doc) empty_doc fox 10 Hc)).
  exists "/other.example/x". left. reflexivity.
Defined.

(** ** The headline text (line 113) *)

Lemma lstrip_decomp (s : string) :
  ∃ pre, s = pre +:+ PyStr.lstrip s ∧ all_space pre = true.
Proof.
  induction s as [|c s (pre & Hs & Hpre)]; [exists EmptyString; split; reflexivity|].
  cbn [PyStr.lstrip]. destruct (PyStr.is_space c) eqn:Hc.
  - exists (String c pre). rewrite append_cons. cbn [all_space]. rewrite Hc, Hpre.
    split; [f_equal; exact Hs|reflexivity].
  - exists EmptyString. split; reflexivity.
Qed.

Lemma rstrip_decomp (s : string) :
  ∃ post, s = PyStr.rstrip s +:+ post ∧ all_space post = true.
Proof.
  induction s as [|c s (post & Hs & Hpost)]; [exists EmptyString; split; reflexivity|].
  cbn [PyStr.rstrip].
  destruct (PyStr.is_space c && negb (PyStr.truthy (PyStr.rstrip s))) eqn:Hc.
  - apply andb_true_iff in Hc as [Hc Hr].
    apply negb_true_iff, truthy_false in Hr. rewrite Hr, append_nil in Hs.
    exists (String c s). rewrite append_nil. cbn [all_space].
    rewrite Hc, Hs, Hpost. split; reflexivity.
  - exists post. rewrite append_cons. split; [f_equal; exact Hs|exact Hpost].
Qed.

(** X17: every reported headline is the text of a matched node with the
    whitespace at its two ends removed and nothing else changed: the text
    is the headline between two runs of whitespace, and the headline
    neither begins nor ends with a whitespace character. *)
Theorem headline_is_text_without_outer_whitespace
    (env : Env) (soup : Document) (config : SourceConfig) (cap : Z) :
  Forall (fun item =>
            (∃ element pre post,
               element ∈ select soup (headline_selector config) ∧
               get_text element = pre +:+ headline item +:+ post ∧
               all_space pre = true ∧ all_space post = true) ∧
            (∀ c r, headline item = String c r → PyStr.is_space c = false) ∧
            (∀ c r, headline item = r +:+ String c EmptyString →
                    PyStr.is_space c = false))
         (extract env soup config cap).
Proof.
  apply Forall_forall. intros item Hin.
  destruct (elem_of_extract _ _ _ _ _ Hin) as (element & Hel & Hc).
  destruct (candidate_Some _ _ _ _ Hc) as (le & _ & Hh & _).
  rewrite Hh. repeat split.
  - destruct (lstrip_decomp (get_text element)) as (pre & Hs & Hpre).
    destruct (rstrip_decomp (PyStr.lstrip (get_text element))) as (post & Ht & Hpost).
    exists element, pre, post. unfold PyStr.strip.
    rewrite <- Ht, <- Hs. auto.
  - intros c r. apply strip_head.
  - intros c r. unfold PyStr.strip. apply rstrip_last.
Qed.
